(** * go-crud: the user handlers of [api/api.go] over an in-memory store

    A shallow embedding of the request validator and of the five resource
    handlers, followed by the properties of the service's contract.

    Conventions of the embedding:
    - a Go byte is an [ascii], a Go string a [string];
    - a JSON text (a request body, the bytes returned by [json.Marshal]) is
      represented by the document it denotes, a [json] tree, so that
      marshalling followed by unmarshalling acts on documents;
    - a pointer [*models.User] is an [option User], [None] being [nil];
    - [models.DB] is a [gmap] from identifiers to such pointers;
    - a handler is a function from the store, the request and the response
      writer to the store and the writer it leaves behind;
    - headers, logging ([slog]) and the router middleware are left out. *)

From Stdlib Require Import String Ascii List NArith Bool Permutation.
From stdpp Require Import gmap strings list fin_maps vector finite.

Local Open Scope string_scope.

(** ** JSON documents *)

#[warnings="-register-all"]
Inductive json : Type :=
| JNull
| JBool (b : bool)
| JNumber (literal : string)
| JString (s : string)
| JArray (elements : list json)
| JObject (members : list (string * json)).

(** The name [encoding/json] gives to the kind of a value in its errors. *)
Definition kind_of (j : json) : string :=
  match j with
  | JNull => "null"
  | JBool _ => "bool"
  | JNumber _ => "number"
  | JString _ => "string"
  | JArray _ => "array"
  | JObject _ => "object"
  end.

(** A request body ([io.ReadCloser]) as the decoder sees it: the first JSON
    value of the stream, or a stream that does not start with one (empty,
    truncated or ill-formed). *)
Inductive ReadCloser : Type :=
| Malformed
| Doc (j : json).

(** A slice of bytes holding JSON text: [None] is the nil slice, [Some j]
    the text of the document [j]. *)
Abbreviation bytes := (option json).

(** ** Errors *)

Inductive error : Type :=
| SyntaxError
| UnknownField (key : string)
| UnmarshalTypeError (value : string) (field : string)
| InvalidLengthError (len : nat)
| InvalidURNPrefix (prefix : string)
| errors_New (msg : string).

(** ** models.User *)

(** Modelled from the spec: the declaration of [models.User] is not among
    the sources; section 3 of the specification gives it three string
    attributes whose JSON keys are [first_name], [last_name] and [bio]. *)
Record User : Type := mkUser {
  FirstName : string;
  LastName : string;
  Bio : string
}.

(** The zero value of the struct, [var user models.User]. *)
Definition zero_User : User := mkUser "" "" "".

Inductive field : Type := first_name | last_name | bio.

Definition field_name (f : field) : string :=
  match f with
  | first_name => "first_name"
  | last_name => "last_name"
  | bio => "bio"
  end.

Definition fields : list field := [first_name; last_name; bio].

Definition get_field (f : field) (u : User) : string :=
  match f with
  | first_name => FirstName u
  | last_name => LastName u
  | bio => Bio u
  end.

Definition set_field (f : field) (s : string) (u : User) : User :=
  match f with
  | first_name => mkUser s (LastName u) (Bio u)
  | last_name => mkUser (FirstName u) s (Bio u)
  | bio => mkUser (FirstName u) (LastName u) s
  end.

(** ** encoding/json: decoding into the struct *)

(** [foldName]: the case folding under which an object key that has no
    exact match is compared with the field names.  ASCII letters go to upper
    case; the two runes outside ASCII whose fold is an ASCII letter, U+017F
    (bytes 197 191) and U+212A (bytes 226 132 170), go to [S] and [K].
    Folded keys are only ever compared with folded field names, which are
    ASCII, so any other byte is carried over as it is. *)
Definition upper (c : ascii) : ascii :=
  let n := N_of_ascii c in
  if ((97 <=? n) && (n <=? 122))%N then ascii_of_N (n - 32) else c.

Definition byte_is (c : ascii) (n : N) : bool := (N_of_ascii c =? n)%N.

Fixpoint foldName (s : string) : string :=
  match s with
  | EmptyString => EmptyString
  | String c rest =>
      if (N_of_ascii c <? 128)%N then String (upper c) (foldName rest)
      else
        match rest with
        | String c1 rest1 =>
            if byte_is c 197 && byte_is c1 191 then String "S" (foldName rest1)
            else
              match rest1 with
              | String c2 rest2 =>
                  if byte_is c 226 && byte_is c1 132 && byte_is c2 170
                  then String "K" (foldName rest2)
                  else String c (foldName rest)
              | EmptyString => String c (foldName rest)
              end
        | EmptyString => String c (foldName rest)
        end
  end.

Definition byExactName (key : string) : option field :=
  List.find (fun f => String.eqb (field_name f) key) fields.

Definition byFoldedName (folded : string) : option field :=
  List.find (fun f => String.eqb (foldName (field_name f)) folded) fields.

(** The field an object key is stored in: an exact match is preferred, a
    match up to case folding is accepted. *)
Definition lookup_field (key : string) : option field :=
  match byExactName key with
  | Some f => Some f
  | None => byFoldedName (foldName key)
  end.

Record Decoder : Type := mkDecoder {
  dec_body : ReadCloser;
  disallowUnknownFields : bool
}.

Definition json_NewDecoder (body : ReadCloser) : Decoder := mkDecoder body false.

Definition DisallowUnknownFields (d : Decoder) : Decoder :=
  mkDecoder (dec_body d) true.

(** The decoder keeps the first error it meets and goes on decoding. *)
Definition saveError (saved : option error) (e : error) : option error :=
  match saved with
  | None => Some e
  | Some _ => saved
  end.

(** One member of the object: a string is stored in its field, [null]
    leaves the field as it is, any other value is a type error; a key that
    names no field is an error only for a strict decoder. *)
Definition object_member (strict : bool) (st : User * option error)
    (kv : string * json) : User * option error :=
  let '(u, saved) := st in
  match lookup_field (fst kv) with
  | Some f =>
      match snd kv with
      | JString s => (set_field f s u, saved)
      | JNull => (u, saved)
      | v => (u, saveError saved (UnmarshalTypeError (kind_of v) (field_name f)))
      end
  | None =>
      if strict then (u, saveError saved (UnknownField (fst kv)))
      else (u, saved)
  end.

(** [decoder.Decode(&user)]: the struct as it stands after the call, and the
    error returned. *)
Definition Decode (d : Decoder) (u : User) : User * option error :=
  match dec_body d with
  | Malformed => (u, Some SyntaxError)
  | Doc JNull => (u, None)
  | Doc (JObject members) =>
      fold_left (object_member (disallowUnknownFields d)) members (u, None)
  | Doc v => (u, Some (UnmarshalTypeError (kind_of v) ""))
  end.

(** ** encoding/json: marshalling, and unmarshalling into a map *)

(** [json.Marshal] takes any value; the values the service marshals are the
    instances of this class.  The bytes returned are nil when there is an
    error. *)
Class Marshaler (A : Type) : Type :=
  json_Marshal : A -> bytes * option error.

(** The members a [User] contributes to an object, in the order of the
    fields; a string field always yields a string. *)
Definition User_members (u : User) : list (string * json) :=
  map (fun f => (field_name f, JString (get_field f u))) fields.

#[export] Instance User_Marshaler : Marshaler User := fun u =>
  (Some (JObject (User_members u)), None).

(** [json.Unmarshal(data, &m)] for [m] a [map[string]interface{}]: members
    are stored in order, a later duplicate replacing an earlier one; a JSON
    [null] member is stored as the nil interface, here [JNull]. *)
Definition json_Unmarshal (data : bytes) : gmap string json * option error :=
  match data with
  | None => (∅, Some SyntaxError)
  | Some (JObject members) =>
      (fold_left (fun m kv => <[fst kv := snd kv]> m) members ∅, None)
  | Some JNull => (∅, None)
  | Some v => (∅, Some (UnmarshalTypeError (kind_of v) ""))
  end.

(** [m[key] == nil]: the key is absent or holds the nil interface. *)
Definition index_is_nil (m : gmap string json) (key : string) : bool :=
  match m !! key with
  | None | Some JNull => true
  | Some _ => false
  end.

(** ** validateRequestBodyFields *)

Definition missing_fields : error :=
  errors_New "please provide FirstName LastName and bio for the user".

Definition validateRequestBodyFields {A : Type} `{Marshaler A}
    (body : ReadCloser) (schemaObj : A) : option User * option error :=
  let decoder := DisallowUnknownFields (json_NewDecoder body) in
  let '(user, err) := Decode decoder zero_User in
  match err with
  | Some e => (None, Some e)
  | None =>
      let '(schemaObjJson, err) := json_Marshal schemaObj in
      match err with
      | Some e => (None, Some e)
      | None =>
          let '(schemaObjMap, err) := json_Unmarshal schemaObjJson in
          match err with
          | Some e => (None, Some e)
          | None =>
              let '(userJson, err) := json_Marshal user in
              match err with
              | Some e => (None, Some e)
              | None =>
                  let '(userMap, err) := json_Unmarshal userJson in
                  match err with
                  | Some e => (None, Some e)
                  | None =>
                      if existsb (index_is_nil userMap)
                           (map fst (map_to_list schemaObjMap))
                      then (None, Some missing_fields)
                      else (Some user, None)
                  end
              end
          end
      end
  end.

(** ** github.com/google/uuid *)

(** A UUID is an array of sixteen bytes. *)
Abbreviation UUID := (vec ascii 16).

(** Identifiers are the keys of the store; they are counted through their
    list of bytes. *)
Definition UUID_of_bytes (l : list ascii) : option UUID :=
  match decide (length l = 16) with
  | left H => Some (eq_rect _ (vec ascii) (list_to_vec l) _ H)
  | right _ => None
  end.

#[export, program] Instance UUID_countable : Countable UUID | 0 :=
  inj_countable vec_to_list UUID_of_bytes _.
Next Obligation.
  intros u.
  unfold UUID_of_bytes.
  destruct (decide (length (vec_to_list u) = 16)) as [H|H].
  - f_equal. rewrite list_to_vec_to_list.
    generalize (eq_sym (length_vec_to_list u)). revert H.
    generalize (length (vec_to_list u)). intros n H H'. destruct H'.
    by rewrite (proof_irrel H eq_refl).
  - by rewrite length_vec_to_list in H.
Qed.

Definition uuid_Nil : UUID := vreplicate 16 zero.

Definition byte_of_N (n : N) : ascii := ascii_of_N (N.land n 255).

(** [xvalues]: the value of a hexadecimal digit, 255 for any other byte. *)
Definition xvalues (c : ascii) : N :=
  let n := N_of_ascii c in
  if ((48 <=? n) && (n <=? 57))%N then (n - 48)%N
  else if ((65 <=? n) && (n <=? 70))%N then (n - 55)%N
  else if ((97 <=? n) && (n <=? 102))%N then (n - 87)%N
  else 255%N.

(** [xtob]: two hexadecimal digits to a byte. *)
Definition xtob (x1 x2 : ascii) : ascii * bool :=
  let b1 := xvalues x1 in
  let b2 := xvalues x2 in
  (byte_of_N (N.lor (N.shiftl b1 4) b2),
   negb (b1 =? 255)%N && negb (b2 =? 255)%N).

(** [s[i]], for an index within the string. *)
Definition byte_at (s : string) (i : nat) : ascii :=
  match String.get i s with
  | Some c => c
  | None => zero
  end.

Definition invalid_format : error := errors_New "invalid UUID format".

(** The loop over the positions of the sixteen digit pairs; it stops at the
    first pair that is not hexadecimal and returns the array as filled so
    far.  [assign_first] tells whether the byte is assigned before the test
    (the loop of the 32 digit form) or after it (the loop of the dashed
    form). *)
Fixpoint parse_pairs (assign_first : bool) (s : string)
    (positions : list (fin 16 * nat)) (uuid : UUID) : UUID * option error :=
  match positions with
  | [] => (uuid, None)
  | (i, x) :: rest =>
      let '(v, ok) := xtob (byte_at s x) (byte_at s (x + 1)) in
      if ok then parse_pairs assign_first s rest (vinsert i v uuid)
      else ((if assign_first then vinsert i v uuid else uuid),
            Some invalid_format)
  end.

Definition dashed_positions : list (fin 16 * nat) :=
  zip (enum (fin 16)) [0; 2; 4; 6; 9; 11; 14; 16; 19; 21; 24; 26; 28; 30; 32; 34].

Definition plain_positions : list (fin 16 * nat) :=
  map (fun i => (i, fin_to_nat i * 2)) (enum (fin 16)).

Definition has_dashes (s : string) : bool :=
  Ascii.eqb (byte_at s 8) "-" && Ascii.eqb (byte_at s 13) "-" &&
  Ascii.eqb (byte_at s 18) "-" && Ascii.eqb (byte_at s 23) "-".

Fixpoint map_string (f : ascii -> ascii) (s : string) : string :=
  match s with
  | EmptyString => EmptyString
  | String c rest => String (f c) (map_string f rest)
  end.

(** [strings.EqualFold(p, "urn:uuid:")] for a prefix [p] of nine bytes. *)
Definition is_urn_prefix (p : string) : bool :=
  String.eqb (map_string upper p) "URN:UUID:".

Definition parse_dashed (s : string) : UUID * option error :=
  if has_dashes s then parse_pairs false s dashed_positions uuid_Nil
  else (uuid_Nil, Some invalid_format).

(** [uuid.Parse]: the dashed form of 36 bytes, the same after [urn:uuid:]
    or between two further bytes, or 32 hexadecimal digits. *)
Definition uuid_Parse (s : string) : UUID * option error :=
  let n := String.length s in
  if Nat.eqb n 36 then parse_dashed s
  else if Nat.eqb n (36 + 9) then
    if is_urn_prefix (substring 0 9 s) then parse_dashed (substring 9 36 s)
    else (uuid_Nil, Some (InvalidURNPrefix (substring 0 9 s)))
  else if Nat.eqb n (36 + 2) then parse_dashed (substring 1 37 s)
  else if Nat.eqb n 32 then parse_pairs true s plain_positions uuid_Nil
  else (uuid_Nil, Some (InvalidLengthError n)).

Definition hextable (n : N) : ascii :=
  if (n <? 10)%N then ascii_of_N (48 + n) else ascii_of_N (87 + n).

(** [hex.Encode]: two lower case digits for each byte. *)
Fixpoint hex_Encode (src : list ascii) : string :=
  match src with
  | [] => EmptyString
  | v :: rest =>
      String (hextable (N.shiftr (N_of_ascii v) 4))
        (String (hextable (N.land (N_of_ascii v) 15)) (hex_Encode rest))
  end.

(** [UUID.String], through [encodeHex]. *)
Definition uuid_String (uuid : UUID) : string :=
  let b := vec_to_list uuid in
  hex_Encode (take 4 b) ++ "-" ++
  hex_Encode (take 2 (drop 4 b)) ++ "-" ++
  hex_Encode (take 2 (drop 6 b)) ++ "-" ++
  hex_Encode (take 2 (drop 8 b)) ++ "-" ++
  hex_Encode (drop 10 b).

(** [uuid.New]: sixteen bytes read from the random source, with the version
    (4) and the variant (10) written over them.  The bytes read are an
    argument. *)
Definition uuid_New (random : UUID) : UUID :=
  let uuid := random in
  let uuid :=
    vinsert 6%fin
      (byte_of_N (N.lor (N.land (N_of_ascii (uuid !!! 6%fin)) 15) 64)) uuid in
  let uuid :=
    vinsert 8%fin
      (byte_of_N (N.lor (N.land (N_of_ascii (uuid !!! 8%fin)) 63) 128)) uuid in
  uuid.

(** ** net/http: the response writer *)

(** What a handler writes to the body: a text, or the bytes of a marshalled
    document. *)
Inductive chunk : Type :=
| Text (s : string)
| Json (j : json).

(** The calls a handler makes on its writer, kept in the order they are
    made. *)
Inductive call : Type :=
| CallWriteHeader (code : nat)
| CallWrite (data : chunk).

(** The status line sent, if any ([wroteHeader]), the body sent so far, and
    the calls received. *)
Record ResponseWriter : Type := mkWriter {
  status : option nat;
  written : list chunk;
  calls : list call
}.

Definition new_writer : ResponseWriter := mkWriter None [] [].

Definition StatusOK : nat := 200.
Definition StatusCreated : nat := 201.
Definition StatusNoContent : nat := 204.
Definition StatusBadRequest : nat := 400.
Definition StatusNotFound : nat := 404.
Definition StatusInternalServerError : nat := 500.

(** The first status written is the status of the response; a later call
    is superfluous and changes nothing. *)
Definition send_header (w : ResponseWriter) (code : nat) : ResponseWriter :=
  match status w with
  | Some _ => w
  | None => mkWriter (Some code) (written w) (calls w)
  end.

Definition WriteHeader (w : ResponseWriter) (code : nat) : ResponseWriter :=
  let w := mkWriter (status w) (written w) (calls w ++ [CallWriteHeader code]) in
  send_header w code.

Definition bodyAllowedForStatus (code : nat) : bool :=
  if ((100 <=? code) && (code <=? 199))%nat then false
  else if (code =? 204)%nat then false
  else if (code =? 304)%nat then false
  else true.

(** [w.Write(data)]: the status defaults to 200 when none was written; the
    data joins the body unless the status forbids a body. *)
Definition Write (w : ResponseWriter) (data : chunk) : ResponseWriter :=
  let w := mkWriter (status w) (written w) (calls w ++ [CallWrite data]) in
  let w := send_header w StatusOK in
  match status w with
  | Some code =>
      if bodyAllowedForStatus code
      then mkWriter (status w) (written w ++ [data]) (calls w)
      else w
  | None => w
  end.

(** A message followed by a line feed. *)
Definition line (msg : string) : string := msg ++ String "010" EmptyString.

(** [http.Error]: the status, then the message and a line feed
    ([fmt.Fprintln]). *)
Definition http_Error (w : ResponseWriter) (msg : string) (code : nat)
    : ResponseWriter :=
  let w := WriteHeader w code in
  Write w (Text (line msg)).

(** ** The store, the requests, the response objects *)

(** [models.DB[*models.User]]: a map from identifiers to pointers. *)
Abbreviation DB := (gmap UUID (option User)).

(** [user, ok := db[id]]: the nil pointer and [false] for a missing key. *)
Definition map_index (db : DB) (id : UUID) : option User * bool :=
  match db !! id with
  | Some user => (user, true)
  | None => (None, false)
  end.

(** What a handler reads of a request: the parameters the router took from
    the path, and the body. *)
Record Request : Type := mkRequest {
  URLParams : list (string * string);
  Body : ReadCloser
}.

Definition chi_URLParam (r : Request) (key : string) : string :=
  match List.find (fun kv => String.eqb (fst kv) key) (URLParams r) with
  | Some kv => snd kv
  | None => ""
  end.

(** [UserResponse]: the identifier and the embedded pointer. *)
Record UserResponse : Type := mkUserResponse {
  ID : UUID;
  UserPtr : option User
}.

(** The identifier is marshalled as the string of its textual form
    ([UUID.MarshalText]); the fields of the embedded struct follow it, and
    are left out when the pointer is nil. *)
#[export] Instance UserResponse_Marshaler : Marshaler UserResponse := fun r =>
  (Some (JObject (("id", JString (uuid_String (ID r))) ::
                  match UserPtr r with
                  | Some u => User_members u
                  | None => []
                  end)), None).

(** A slice is nil until something is appended to it. *)
Inductive slice (A : Type) : Type :=
| nil_slice
| mk_slice (elements : list A).
Arguments nil_slice {A}.
Arguments mk_slice {A} elements.

Definition append {A : Type} (s : slice A) (x : A) : slice A :=
  match s with
  | nil_slice => mk_slice [x]
  | mk_slice l => mk_slice (l ++ [x])
  end.

Fixpoint marshal_elements {A : Type} `{Marshaler A} (l : list A)
    : option (list json) * option error :=
  match l with
  | [] => (Some [], None)
  | x :: rest =>
      match json_Marshal x with
      | (Some j, None) =>
          match marshal_elements rest with
          | (Some js, None) => (Some (j :: js), None)
          | failed => failed
          end
      | (_, err) => (None, err)
      end
  end.

(** The nil slice is marshalled as [null], any other slice as an array. *)
#[export] Instance slice_Marshaler {A : Type} `{Marshaler A}
    : Marshaler (slice A) := fun s =>
  match s with
  | nil_slice => (Some JNull, None)
  | mk_slice l =>
      match marshal_elements l with
      | (Some js, None) => (Some (JArray js), None)
      | (_, err) => (None, err)
      end
  end.

(** The bytes handed to [w.Write]. *)
Definition marshalled (data : bytes) : chunk :=
  match data with
  | Some j => Json j
  | None => Text ""
  end.

Definition notnil (err : option error) : bool :=
  match err with
  | Some _ => true
  | None => false
  end.

(** ** The handlers *)

(** [handleFindAll].  [range] visits every entry of the map once, in an
    order that is not specified: the order of the visit is an argument,
    [range_order] says which orders are possible. *)
Definition range_order (db : DB) (order : list (UUID * option User)) : Prop :=
  order ≡ₚ map_to_list db.

Definition handleFindAll (db : DB) (order : list (UUID * option User))
    (r : Request) (w : ResponseWriter) : DB * ResponseWriter :=
  let result :=
    fold_left (fun result kv => append result (mkUserResponse (fst kv) (snd kv)))
      order nil_slice in
  let '(jsonResult, err) := json_Marshal result in
  let w :=
    if notnil err
    then http_Error w "Error parsing response" StatusInternalServerError
    else w in
  let w := WriteHeader w StatusOK in
  let w := Write w (marshalled jsonResult) in
  (db, w).

Definition handleFindById (db : DB) (r : Request) (w : ResponseWriter)
    : DB * ResponseWriter :=
  let id := chi_URLParam r "id" in
  let '(parsedID, err) := uuid_Parse id in
  let w := if notnil err then http_Error w "Invalid ID" StatusBadRequest else w in
  let '(user, ok) := map_index db parsedID in
  let w := if negb ok then http_Error w "User not found" StatusNotFound else w in
  let userResponse := mkUserResponse parsedID user in
  let '(jsonUser, err) := json_Marshal userResponse in
  let w :=
    if notnil err
    then http_Error w "Error parsing response" StatusInternalServerError
    else w in
  let w := WriteHeader w StatusOK in
  let w := Write w (marshalled jsonUser) in
  (db, w).

(** [handleInsert]; [random] is what [uuid.New] reads from the random
    source during the call. *)
Definition handleInsert (db : DB) (random : UUID) (r : Request)
    (w : ResponseWriter) : DB * ResponseWriter :=
  let userModel := zero_User in
  let '(user, err) := validateRequestBodyFields (Body r) userModel in
  let w :=
    if notnil err then http_Error w "Invalid request body" StatusBadRequest
    else w in
  let userId := uuid_New random in
  let db := <[userId := user]> db in
  let userResponse := mkUserResponse userId user in
  let '(jsonUser, err) := json_Marshal userResponse in
  let w :=
    if notnil err
    then http_Error w "Error while parsing the response" StatusInternalServerError
    else w in
  let w := WriteHeader w StatusCreated in
  let w := Write w (marshalled jsonUser) in
  (db, w).

Definition handleUpdate (db : DB) (r : Request) (w : ResponseWriter)
    : DB * ResponseWriter :=
  let id := chi_URLParam r "id" in
  let '(parsedID, err) := uuid_Parse id in
  let w := if notnil err then http_Error w "Invalid ID" StatusBadRequest else w in
  let userModel := zero_User in
  let '(user, err) := validateRequestBodyFields (Body r) userModel in
  let w :=
    if notnil err then http_Error w "Invalid request body" StatusBadRequest
    else w in
  let '(_, ok) := map_index db parsedID in
  let w := if negb ok then http_Error w "User not found" StatusNotFound else w in
  let db := <[parsedID := user]> db in
  let userResponse := mkUserResponse parsedID user in
  let '(jsonUser, err) := json_Marshal userResponse in
  let w :=
    if notnil err
    then http_Error w "Error while parsing the response" StatusInternalServerError
    else w in
  let w := WriteHeader w StatusOK in
  let w := Write w (marshalled jsonUser) in
  (db, w).

Definition handleDelete (db : DB) (r : Request) (w : ResponseWriter)
    : DB * ResponseWriter :=
  let id := chi_URLParam r "id" in
  let '(parsedID, err) := uuid_Parse id in
  let w := if notnil err then http_Error w "Invalid ID" StatusBadRequest else w in
  let '(_, ok) := map_index db parsedID in
  let w := if negb ok then http_Error w "User not found" StatusNotFound else w in
  let db := delete parsedID db in
  let w := WriteHeader w StatusNoContent in
  (db, w).

(** ** Auxiliary definitions for the statements *)

(** Strict decoding as the validator runs it. *)
Definition decode_strict (body : ReadCloser) : User * option error :=
  Decode (DisallowUnknownFields (json_NewDecoder body)) zero_User.

(** The response object of a stored entry. *)
Definition wrapped (id : UUID) (user : option User) : json :=
  JObject (("id", JString (uuid_String id)) ::
           match user with
           | Some u => User_members u
           | None => []
           end).

(** Requests and values used as examples. *)

Definition post (body : ReadCloser) : Request := mkRequest [] body.

Definition with_id (id : string) (body : ReadCloser) : Request :=
  mkRequest [("id", id)] body.

(** The identifier minted from sixteen zero bytes. *)
Definition id0 : UUID := uuid_New uuid_Nil.

Definition id0_text : string := "00000000-0000-4000-8000-000000000000".

Definition user_abc : User := mkUser "A" "B" "C".

Definition body_without_bio : ReadCloser :=
  Doc (JObject [("first_name", JString "A"); ("last_name", JString "B")]).

Definition body_null_bio : ReadCloser :=
  Doc (JObject [("first_name", JString "A"); ("last_name", JString "B");
                ("bio", JNull)]).

Definition body_empty_bio : ReadCloser :=
  Doc (JObject [("first_name", JString "A"); ("last_name", JString "B");
                ("bio", JString "")]).

Definition body_ordered : ReadCloser :=
  Doc (JObject [("first_name", JString "A"); ("last_name", JString "B");
                ("bio", JString "C")]).

Definition body_shuffled : ReadCloser :=
  Doc (JObject [("BIO", JString "x"); ("last_name", JString "B");
                ("bio", JString "C"); ("First_Name", JString "A")]).

Definition body_nickname : ReadCloser :=
  Doc (JObject [("nickname", JString "x")]).

Definition body_upper_bio : ReadCloser :=
  Doc (JObject [("first_name", JString "A"); ("last_name", JString "B");
                ("BIO", JString "C")]).

Definition body_again : ReadCloser :=
  Doc (JObject [("first_name", JString "D"); ("last_name", JString "E");
                ("bio", JString "F")]).


(** ** handleInsert_EXPERIMENTAL *)

(** What [encoding/json] finds in the bytes of a body: no JSON value at
    their start, one value and nothing else but white space, or a value
    followed by further bytes. *)
Inductive Content : Type :=
| NotJSON
| OneValue (j : json)
| ValueThenMore (j : json).

(** The bytes of a request body: how many they are, and what they hold. *)
Record RawBody : Type := mkRawBody {
  raw_size : N;
  raw_content : Content
}.

(** A reader over the bytes ([io.NopCloser(bytes.NewReader(b))]): a decoder
    reads the first value and stops there. *)
Definition io_NopCloser (b : RawBody) : ReadCloser :=
  match raw_content b with
  | NotJSON => Malformed
  | OneValue j | ValueThenMore j => Doc j
  end.

Definition too_large : error := errors_New "http: request body too large".

(** [io.ReadAll] over [http.MaxBytesReader(w, body, n)]: reading fails once
    more than [n] bytes have come. *)
Definition io_ReadAll_MaxBytes (body : RawBody) (n : N)
    : RawBody * option error :=
  if (n <? raw_size body)%N then (body, Some too_large) else (body, None).

(** [json.Unmarshal(data, &payload)] into the struct: the bytes must be one
    JSON value; unknown keys are ignored. *)
Definition json_Unmarshal_User (data : RawBody) (u : User)
    : User * option error :=
  match raw_content data with
  | OneValue j => Decode (json_NewDecoder (Doc j)) u
  | NotJSON | ValueThenMore _ => (u, Some SyntaxError)
  end.

Definition handleInsert_EXPERIMENTAL (db : DB) (body : RawBody)
    (w : ResponseWriter) : DB * ResponseWriter :=
  let maxBytes := (1024 * 1024)%N in
  let '(bodyBytes, err) := io_ReadAll_MaxBytes body maxBytes in
  if notnil err
  then (db, http_Error w "Error reading request body" StatusInternalServerError)
  else
    let '(payload, err) := json_Unmarshal_User bodyBytes zero_User in
    if notnil err
    then (db, http_Error w "Error unmarshaling request body to payload"
                StatusBadRequest)
    else
      let body := io_NopCloser bodyBytes in
      let decoder := DisallowUnknownFields (json_NewDecoder body) in
      let '(user, err) := Decode decoder zero_User in
      if notnil err
      then (db, http_Error w "Error unmarshaling request body to payload"
                  StatusBadRequest)
      else
        let '(data, err) := json_Marshal user in
        if notnil err then (db, w)
        else (db, Write w (marshalled data)).

(** ** NewHandler *)

Inductive Method : Type := GET | POST | PUT | DELETE.

(** The two patterns of the router, [/users] and [/users/{id}]; the router
    puts what it finds in place of [{id}] among the parameters of the
    request. *)
Inductive Pattern : Type := users | users_id.

(** What a handler takes from outside the request: the order in which a
    [range] visits the store, and the bytes the random source yields. *)
Record Env : Type := mkEnv {
  env_order : list (UUID * option User);
  env_random : UUID
}.

Definition HandlerFunc : Type :=
  Env -> DB -> Request -> ResponseWriter -> DB * ResponseWriter.

(** The table of routes; a method and a pattern outside it have no
    handler. *)
Definition NewHandler (m : Method) (p : Pattern) : option HandlerFunc :=
  match m, p with
  | GET, users => Some (fun env db r w => handleFindAll db (env_order env) r w)
  | GET, users_id => Some (fun env db r w => handleFindById db r w)
  | POST, users => Some (fun env db r w => handleInsert db (env_random env) r w)
  | PUT, users_id => Some (fun env db r w => handleUpdate db r w)
  | DELETE, users_id => Some (fun env db r w => handleDelete db r w)
  | _, _ => None
  end.

(** One request served: the route it matched, its environment, and what the
    handler reads of it. *)
Record Served : Type := mkServed {
  served_method : Method;
  served_pattern : Pattern;
  served_env : Env;
  served_request : Request
}.

(** The store after a request, each request getting a writer of its own; a
    request with no handler does not reach the store. *)
Definition serve (db : DB) (s : Served) : DB :=
  match NewHandler (served_method s) (served_pattern s) with
  | Some h => fst (h (served_env s) db (served_request s) new_writer)
  | None => db
  end.

Definition serve_all (db : DB) (l : list Served) : DB := fold_left serve l db.

(** ** Notions used in the statements *)

(** The store holds no nil pointer. *)
Definition no_nil (db : DB) : Prop := forall id, db !! id <> Some None.

(** A request that writes a user (create, update) carries a body that passes
    validation. *)
Definition writes_valid (s : Served) : Prop :=
  match served_method s with
  | POST | PUT =>
      exists user,
        validateRequestBodyFields (Body (served_request s)) zero_User
          = (Some user, None)
  | GET | DELETE => True
  end.

(** A key names field [f]. *)
Definition names (f : field) (key : string) : bool :=
  match lookup_field key with
  | Some f' => String.eqb (field_name f') (field_name f)
  | None => false
  end.

(** The string a member gives to field [f], if it gives one: its key names
    [f] and its value is a string. *)
Definition gives (f : field) (kv : string * json) : option string :=
  match snd kv with
  | JString s => if names f (fst kv) then Some s else None
  | _ => None
  end.

(** The string a body gives to field [f]: the last one its members give,
    the empty string when they give none. *)
Definition field_value (f : field) (members : list (string * json)) : string :=
  List.last (omap (gives f) members) "".

(** A member a strict decoder takes: its key names a field and its value is
    a string or [null]. *)
Definition member_ok (kv : string * json) : bool :=
  match lookup_field (fst kv), snd kv with
  | Some _, (JString _ | JNull) => true
  | _, _ => false
  end.

(** The body with the three fields in the order of the struct. *)
Definition body3 (a b c : string) : ReadCloser :=
  Doc (JObject [("first_name", JString a); ("last_name", JString b);
                ("bio", JString c)]).

(** The response object for an identifier and three strings. *)
Definition object3 (id : UUID) (a b c : string) : json :=
  JObject [("id", JString (uuid_String id)); ("first_name", JString a);
           ("last_name", JString b); ("bio", JString c)].

Definition members_duplicates : list (string * json) :=
  [("bio", JString "old"); ("LAST_NAME", JString "B"); ("Bio", JString "new");
   ("bio", JNull)].

Definition no_env : Env := mkEnv [] uuid_Nil.

Definition requests_sample : list Served :=
  [mkServed POST users no_env (post body_ordered);
   mkServed PUT users_id no_env (with_id "x" body_again);
   mkServed DELETE users_id no_env (with_id id0_text Malformed);
   mkServed GET users_id no_env (with_id id0_text Malformed)].

Definition raw_ordered : RawBody :=
  mkRawBody 46 (OneValue (JObject [("first_name", JString "A");
                                   ("last_name", JString "B");
                                   ("bio", JString "C")])).

(** A key is, letter for letter, one of the three keys of [User]. *)
Definition is_field_key (key : string) : bool :=
  existsb (fun f => String.eqb (field_name f) key) fields.

(** Another identifier. *)
Definition id1 : UUID := uuid_New (vreplicate 16 "001"%char).


(** * Properties *)

Local Open Scope list_scope.

(** ** The validator *)

(** Marshalling a struct of strings always yields its three keys, each with
    a string: the loop over the keys of the schema finds none of them nil. *)
Lemma presence_check_passes (user : User) :
  let '(schemaObjMap, _) := json_Unmarshal (fst (json_Marshal zero_User)) in
  let '(userMap, _) := json_Unmarshal (fst (json_Marshal user)) in
  existsb (index_is_nil userMap) (map fst (map_to_list schemaObjMap)) = false.
Proof. destruct user as [a b c]. vm_compute. reflexivity. Qed.

(** The validator returns what strict decoding returns. *)
Lemma validate_decode (body : ReadCloser) :
  validateRequestBodyFields body zero_User =
  match decode_strict body with
  | (user, None) => (Some user, None)
  | (_, Some e) => (None, Some e)
  end.
Proof.
  unfold validateRequestBodyFields, decode_strict.
  destruct (Decode _ _) as [user [e|]]; [reflexivity|].
  pose proof (presence_check_passes user) as Hp.
  cbv beta iota delta [json_Marshal User_Marshaler] in Hp |- *.
  simpl fst in Hp.
  destruct (json_Unmarshal (Some (JObject (User_members zero_User))))
    as [m1 e1] eqn:E1.
  destruct (json_Unmarshal (Some (JObject (User_members user))))
    as [m2 e2] eqn:E2.
  simpl in E1, E2. injection E1 as <- <-. injection E2 as <- <-.
  rewrite Hp. reflexivity.
Qed.

(** The error for missing fields is never returned. *)
Lemma saveError_not_missing (saved : option error) (e : error) :
  saved <> Some missing_fields -> e <> missing_fields ->
  saveError saved e <> Some missing_fields.
Proof. destruct saved; simpl; congruence. Qed.

Lemma object_fold_not_missing (members : list (string * json)) :
  forall (u : User) (saved : option error),
    saved <> Some missing_fields ->
    snd (fold_left (object_member true) members (u, saved))
      <> Some missing_fields.
Proof.
  induction members as [|[k v] members IH]; intros u saved Hs; [exact Hs|].
  cbn [fold_left]. unfold object_member at 2. cbn [fst snd].
  destruct (lookup_field k); [destruct v|]; apply IH;
    try exact Hs; apply saveError_not_missing; try exact Hs; discriminate.
Qed.

Lemma validate_never_missing_fields (body : ReadCloser) :
  snd (validateRequestBodyFields body zero_User) <> Some missing_fields.
Proof.
  rewrite validate_decode.
  assert (H : snd (decode_strict body) <> Some missing_fields).
  { unfold decode_strict, Decode. cbn [dec_body DisallowUnknownFields
      json_NewDecoder disallowUnknownFields].
    destruct body as [|[]]; cbn [snd]; try discriminate.
    apply object_fold_not_missing. discriminate. }
  destruct (decode_strict body) as [u [e|]]; cbn [snd] in *;
    [exact H|discriminate].
Qed.

(** C1.  The validator is meant to accept a strictly decoded body exactly
    when each of [first_name], [last_name] and [bio] is present and not
    null.  On the code the presence check never fails: a body with an empty
    [bio] is accepted, and so are a body without [bio] and a body whose
    [bio] is null, both decoded to a [User] with an empty [Bio]. *)
Theorem C1_missing_bio_is_accepted :
  validateRequestBodyFields body_empty_bio zero_User
    = (Some (mkUser "A" "B" ""), None) /\
  validateRequestBodyFields body_without_bio zero_User
    = (Some (mkUser "A" "B" ""), None) /\
  validateRequestBodyFields body_null_bio zero_User
    = (Some (mkUser "A" "B" ""), None).
Proof. repeat split; vm_compute; reflexivity. Qed.

(** C10.  Two bodies that pass strict decoding with the same [User] get the
    same answer from the validator. *)
Theorem C10_validator_depends_on_decoded_user
    (body1 body2 : ReadCloser) (user : User) :
  decode_strict body1 = (user, None) ->
  decode_strict body2 = (user, None) ->
  validateRequestBodyFields body1 zero_User
    = validateRequestBodyFields body2 zero_User.
Proof. intros H1 H2. rewrite !validate_decode, H1, H2. reflexivity. Qed.

Lemma C10_witness :
  decode_strict body_ordered = (mkUser "A" "B" "C", None) /\
  decode_strict body_shuffled = (mkUser "A" "B" "C", None) /\
  validateRequestBodyFields body_ordered zero_User
    = validateRequestBodyFields body_shuffled zero_User.
Proof.
  split; [vm_compute; reflexivity|].
  split; [vm_compute; reflexivity|].
  apply (C10_validator_depends_on_decoded_user
           body_ordered body_shuffled (mkUser "A" "B" "C"));
    vm_compute; reflexivity.
Defined.

(** ** Identifiers: parsing undoes printing *)

Lemma xtob_hextable (b : ascii) :
  xtob (hextable (N.shiftr (N_of_ascii b) 4))
       (hextable (N.land (N_of_ascii b) 15)) = (b, true).
Proof. destruct b as [[] [] [] [] [] [] [] []]; vm_compute; reflexivity. Qed.

Lemma dashed_positions_eq :
  dashed_positions =
  [(0%fin, 0); (1%fin, 2); (2%fin, 4); (3%fin, 6); (4%fin, 9); (5%fin, 11);
   (6%fin, 14); (7%fin, 16); (8%fin, 19); (9%fin, 21); (10%fin, 24);
   (11%fin, 26); (12%fin, 28); (13%fin, 30); (14%fin, 32); (15%fin, 34)].
Proof. vm_compute. reflexivity. Qed.

Lemma uuid_Parse_String (u : UUID) : uuid_Parse (uuid_String u) = (u, None).
Proof.
  inv_vec u. intros b0 b1 b2 b3 b4 b5 b6 b7 b8 b9 b10 b11 b12 b13 b14 b15.
  unfold uuid_String, uuid_Parse, parse_dashed, has_dashes.
  rewrite dashed_positions_eq.
  cbv beta iota zeta delta
    [vec_to_list firstn skipn hex_Encode String.append String.length Nat.eqb
     byte_at String.get Ascii.eqb Bool.eqb andb parse_pairs Nat.add].
  rewrite !xtob_hextable.
  reflexivity.
Qed.

(** ** The create handler *)


(** When validation fails the handler writes the error and goes on: the nil
    pointer is stored under a new identifier. *)
Lemma handleInsert_invalid (db : DB) (random : UUID) (r : Request) (e : error) :
  validateRequestBodyFields (Body r) zero_User = (None, Some e) ->
  handleInsert db random r new_writer =
  (<[uuid_New random := None]> db,
   mkWriter (Some StatusBadRequest)
     [Text (line "Invalid request body");
      Json (wrapped (uuid_New random) None)]
     [CallWriteHeader StatusBadRequest;
      CallWrite (Text (line "Invalid request body"));
      CallWriteHeader StatusCreated;
      CallWrite (Json (wrapped (uuid_New random) None))]).
Proof. intros Hv. unfold handleInsert. rewrite Hv. reflexivity. Qed.

(** C2.  A create request whose body fails validation should get 400 and
    leave the store as it was.  On the code the handler does answer 400, but
    it does not return: it mints an identifier and stores the nil pointer
    under it.  Here the body has an unknown key and the store is empty
    before the call. *)
Theorem C2_failed_create_inserts :
  validateRequestBodyFields body_nickname zero_User
    = (None, Some (UnknownField "nickname")) /\
  status (snd (handleInsert ∅ uuid_Nil (post body_nickname) new_writer))
    = Some StatusBadRequest /\
  fst (handleInsert ∅ uuid_Nil (post body_nickname) new_writer) !! id0
    = Some None /\
  fst (handleInsert ∅ uuid_Nil (post body_nickname) new_writer) <> ∅.
Proof.
  assert (Hv : validateRequestBodyFields (Body (post body_nickname)) zero_User
               = (None, Some (UnknownField "nickname")))
    by (vm_compute; reflexivity).
  rewrite (handleInsert_invalid _ _ _ _ Hv). cbn [fst snd status].
  split; [exact Hv|]. split; [reflexivity|]. split.
  - apply lookup_insert_eq.
  - apply insert_non_empty.
Qed.

(** ** The update handler *)

(** C3.  For an update with an identifier that parses and a body that
    passes validation, the store afterwards maps the identifier to the
    decoded [User] whatever it held before, every other entry being as it
    was; when the identifier was absent the response is 404 "User not
    found", otherwise it is 200. *)
Theorem C3_update_writes_in_either_case
    (db : DB) (r : Request) (id : UUID) (user : User) :
  uuid_Parse (chi_URLParam r "id") = (id, None) ->
  validateRequestBodyFields (Body r) zero_User = (Some user, None) ->
  let '(db', w) := handleUpdate db r new_writer in
  db' = <[id := Some user]> db /\
  db' !! id = Some (Some user) /\
  (db !! id = None ->
     status w = Some StatusNotFound /\
     written w = [Text (line "User not found");
                  Json (wrapped id (Some user))]) /\
  (is_Some (db !! id) ->
     status w = Some StatusOK /\
     written w = [Json (wrapped id (Some user))]).
Proof.
  intros Hp Hv. unfold handleUpdate, map_index. rewrite Hp, Hv.
  destruct (db !! id) as [old|] eqn:Hold; cbn [notnil negb];
    (split; [reflexivity|]); (split; [apply lookup_insert_eq|]); split.
  - discriminate.
  - intros _. split; reflexivity.
  - intros _. split; reflexivity.
  - intros [x Hx]. discriminate.
Qed.

Lemma C3_witness :
  uuid_Parse (chi_URLParam (with_id id0_text body_ordered) "id") = (id0, None) /\
  validateRequestBodyFields (Body (with_id id0_text body_ordered)) zero_User
    = (Some user_abc, None) /\
  let '(db', w) := handleUpdate ∅ (with_id id0_text body_ordered) new_writer in
  db' = <[id0 := Some user_abc]> ∅ /\
  db' !! id0 = Some (Some user_abc) /\
  ((∅ : DB) !! id0 = None ->
     status w = Some StatusNotFound /\
     written w = [Text (line "User not found");
                  Json (wrapped id0 (Some user_abc))]) /\
  (is_Some ((∅ : DB) !! id0) ->
     status w = Some StatusOK /\
     written w = [Json (wrapped id0 (Some user_abc))]).
Proof.
  split; [vm_compute; reflexivity|].
  split; [vm_compute; reflexivity|].
  apply (C3_update_writes_in_either_case ∅ (with_id id0_text body_ordered)
           id0 user_abc); vm_compute; reflexivity.
Defined.

(** ** The delete handler *)

(** C5.  Deleting an identifier of the store answers 204 and removes the
    entry; deleting it again answers 404 and leaves the store as the first
    call left it. *)
Theorem C5_delete_twice (db : DB) (r : Request) (id : UUID) (user : option User) :
  uuid_Parse (chi_URLParam r "id") = (id, None) ->
  db !! id = Some user ->
  let '(db1, w1) := handleDelete db r new_writer in
  let '(db2, w2) := handleDelete db1 r new_writer in
  status w1 = Some StatusNoContent /\ written w1 = [] /\
  db1 = delete id db /\ db1 !! id = None /\
  status w2 = Some StatusNotFound /\
  written w2 = [Text (line "User not found")] /\
  db2 = db1.
Proof.
  intros Hp Hin. unfold handleDelete, map_index. rewrite Hp, Hin.
  rewrite lookup_delete_eq. cbn [notnil negb].
  repeat (split; [reflexivity|]).
  apply delete_delete_eq.
Qed.

Lemma C5_witness :
  uuid_Parse (chi_URLParam (with_id id0_text Malformed) "id") = (id0, None) /\
  (<[id0 := Some user_abc]> ∅ : DB) !! id0 = Some (Some user_abc) /\
  let '(db1, w1) :=
    handleDelete (<[id0 := Some user_abc]> ∅) (with_id id0_text Malformed)
      new_writer in
  let '(db2, w2) := handleDelete db1 (with_id id0_text Malformed) new_writer in
  status w1 = Some StatusNoContent /\ written w1 = [] /\
  db1 = delete id0 (<[id0 := Some user_abc]> ∅) /\ db1 !! id0 = None /\
  status w2 = Some StatusNotFound /\
  written w2 = [Text (line "User not found")] /\
  db2 = db1.
Proof.
  split; [vm_compute; reflexivity|].
  split; [vm_compute; reflexivity|].
  apply (C5_delete_twice (<[id0 := Some user_abc]> ∅)
           (with_id id0_text Malformed) id0 (Some user_abc));
    vm_compute; reflexivity.
Defined.

(** ** The get-by-id handler *)

(** C6.  After the 400 for an identifier that does not parse, and after the
    404 for an identifier that is not in the store, the handler goes on: its
    last two calls are always [WriteHeader(200)] and the write of the
    marshalled response.  The status sent is the first one written, and the
    marshalled response joins the body after the error texts. *)
Theorem C6_get_continues_after_error (db : DB) (r : Request) :
  let '(parsedID, err) := uuid_Parse (chi_URLParam r "id") in
  let '(user, ok) := map_index db parsedID in
  let w := snd (handleFindById db r new_writer) in
  calls w =
    (if notnil err
     then [CallWriteHeader StatusBadRequest;
           CallWrite (Text (line "Invalid ID"))]
     else []) ++
    (if negb ok
     then [CallWriteHeader StatusNotFound;
           CallWrite (Text (line "User not found"))]
     else []) ++
    [CallWriteHeader StatusOK; CallWrite (Json (wrapped parsedID user))] /\
  status w =
    Some (if notnil err then StatusBadRequest
          else if negb ok then StatusNotFound else StatusOK) /\
  written w =
    (if notnil err then [Text (line "Invalid ID")] else []) ++
    (if negb ok then [Text (line "User not found")] else []) ++
    [Json (wrapped parsedID user)].
Proof.
  unfold handleFindById.
  destruct (uuid_Parse (chi_URLParam r "id")) as [parsedID [e|]];
    destruct (map_index db parsedID) as [user []];
    repeat split; reflexivity.
Qed.

(** C7.  The handler returns the store it was given, and what it writes
    depends on the request through the identifier alone: two requests with
    the same identifier, whatever else they carry, the second served on the
    store the first one left, get the same response; that response is the
    one fixed by the identifier and the store. *)
Theorem C7_get_is_a_pure_reader (db : DB) (r1 r2 : Request)
    (w : ResponseWriter) :
  chi_URLParam r1 "id" = chi_URLParam r2 "id" ->
  let '(parsedID, err) := uuid_Parse (chi_URLParam r1 "id") in
  let '(user, ok) := map_index db parsedID in
  let '(db1, w1) := handleFindById db r1 w in
  let '(db2, w2) := handleFindById db1 r2 w in
  db1 = db /\ db2 = db /\ w2 = w1 /\
  w1 = Write
         (WriteHeader
            (let w := if notnil err
                      then http_Error w "Invalid ID" StatusBadRequest else w in
             if negb ok then http_Error w "User not found" StatusNotFound
             else w)
            StatusOK)
         (Json (wrapped parsedID user)).
Proof.
  intros Hid.
  unfold handleFindById, json_Marshal, UserResponse_Marshaler.
  rewrite <- Hid.
  destruct (uuid_Parse (chi_URLParam r1 "id")) as [parsedID err].
  destruct (map_index db parsedID) as [user ok] eqn:Hdb.
  cbv beta iota zeta. rewrite Hdb.
  repeat split; reflexivity.
Qed.

Lemma C7_witness :
  chi_URLParam (with_id id0_text Malformed) "id"
    = chi_URLParam (mkRequest [("id", id0_text); ("page", "2")] body_ordered)
        "id" /\
  let '(parsedID, err) :=
    uuid_Parse (chi_URLParam (with_id id0_text Malformed) "id") in
  let '(user, ok) := map_index (<[id0 := Some user_abc]> ∅) parsedID in
  let '(db1, w1) :=
    handleFindById (<[id0 := Some user_abc]> ∅) (with_id id0_text Malformed)
      new_writer in
  let '(db2, w2) :=
    handleFindById db1
      (mkRequest [("id", id0_text); ("page", "2")] body_ordered) new_writer in
  db1 = <[id0 := Some user_abc]> ∅ /\ db2 = <[id0 := Some user_abc]> ∅ /\
  w2 = w1 /\
  w1 = Write
         (WriteHeader
            (let w := if notnil err
                      then http_Error new_writer "Invalid ID" StatusBadRequest
                      else new_writer in
             if negb ok then http_Error w "User not found" StatusNotFound
             else w)
            StatusOK)
         (Json (wrapped parsedID user)).
Proof.
  split; [vm_compute; reflexivity|].
  apply (C7_get_is_a_pure_reader (<[id0 := Some user_abc]> ∅)
           (with_id id0_text Malformed)
           (mkRequest [("id", id0_text); ("page", "2")] body_ordered)
           new_writer).
  vm_compute. reflexivity.
Defined.

(** ** The list handler *)

Lemma range_order_empty (order : list (UUID * option User)) :
  range_order ∅ order -> order = [].
Proof.
  unfold range_order. rewrite map_to_list_empty.
  intros H. symmetry in H. apply Permutation_nil in H. exact H.
Qed.

(** C4.  The list handler should answer an empty store with an empty JSON
    array.  On the code nothing is appended to the nil slice [result], which
    is marshalled as [null]: the body is [null], with status 200. *)
Theorem C4_empty_store_lists_null (order : list (UUID * option User))
    (r : Request) :
  range_order ∅ order ->
  handleFindAll ∅ order r new_writer =
  (∅, mkWriter (Some StatusOK) [Json JNull]
        [CallWriteHeader StatusOK; CallWrite (Json JNull)]).
Proof. intros ->%range_order_empty. reflexivity. Qed.

Lemma C4_witness :
  range_order ∅ [] /\
  handleFindAll ∅ [] (post Malformed) new_writer =
  (∅, mkWriter (Some StatusOK) [Json JNull]
        [CallWriteHeader StatusOK; CallWrite (Json JNull)]).
Proof.
  split.
  - unfold range_order. vm_compute. constructor.
  - apply (C4_empty_store_lists_null [] (post Malformed)).
    unfold range_order. vm_compute. constructor.
Defined.

(** For a store that is not empty the body is the array of the wrapped
    entries, in the order of the visit. *)
Lemma append_fold (order : list (UUID * option User)) (acc : list UserResponse) :
  fold_left (fun result kv => append result (mkUserResponse (fst kv) (snd kv)))
    order (mk_slice acc)
  = mk_slice (acc ++ map (fun kv => mkUserResponse (fst kv) (snd kv)) order).
Proof.
  revert acc. induction order as [|kv order IH]; intros acc; cbn [fold_left map].
  - by rewrite app_nil_r.
  - cbn [append]. rewrite IH, <- app_assoc. reflexivity.
Qed.

Lemma marshal_elements_wrapped (order : list (UUID * option User)) :
  marshal_elements (map (fun kv => mkUserResponse (fst kv) (snd kv)) order)
  = (Some (map (fun kv => wrapped (fst kv) (snd kv)) order), None).
Proof.
  induction order as [|kv order IH]; [reflexivity|].
  cbn [map marshal_elements]. rewrite IH. reflexivity.
Qed.

Lemma handleFindAll_nonempty (db : DB) (order : list (UUID * option User))
    (r : Request) :
  order <> [] ->
  handleFindAll db order r new_writer =
  (db, mkWriter (Some StatusOK)
         [Json (JArray (map (fun kv => wrapped (fst kv) (snd kv)) order))]
         [CallWriteHeader StatusOK;
          CallWrite (Json (JArray (map (fun kv => wrapped (fst kv) (snd kv))
                                        order)))]).
Proof.
  intros Hne. destruct order as [|kv order]; [done|].
  unfold handleFindAll. cbn [fold_left append]. rewrite append_fold.
  change ([mkUserResponse (fst kv) (snd kv)] ++
          map (fun kv => mkUserResponse (fst kv) (snd kv)) order)
    with (map (fun kv => mkUserResponse (fst kv) (snd kv)) (kv :: order)).
  change (json_Marshal (mk_slice ?l))
    with (match marshal_elements l with
          | (Some js, None) => (Some (JArray js), None)
          | (_, err) => (None, err)
          end).
  rewrite marshal_elements_wrapped. reflexivity.
Qed.

Lemma handleFindAll_lists_entries (db : DB) (order : list (UUID * option User))
    (r : Request) :
  range_order db order -> db <> ∅ ->
  exists elements,
    elements ≡ₚ map (fun kv => wrapped (fst kv) (snd kv)) (map_to_list db) /\
    status (snd (handleFindAll db order r new_writer)) = Some StatusOK /\
    written (snd (handleFindAll db order r new_writer))
      = [Json (JArray elements)].
Proof.
  intros Hr Hne.
  assert (order <> []) as Ho.
  { intros ->. apply Hne, map_to_list_empty_iff.
    unfold range_order in Hr. apply Permutation_nil in Hr. exact Hr. }
  rewrite (handleFindAll_nonempty db order r Ho).
  eexists. split; [|split; reflexivity].
  apply Permutation_map. exact Hr.
Qed.

(** ** Unknown keys *)

Lemma object_fold_keeps_error (members : list (string * json)) :
  forall (strict : bool) (u : User) (e : error),
    snd (fold_left (object_member strict) members (u, Some e)) = Some e.
Proof.
  induction members as [|[k v] members IH]; intros strict u e; [reflexivity|].
  cbn [fold_left]. unfold object_member at 2. cbn [fst snd saveError].
  destruct (lookup_field k); [destruct v|destruct strict]; apply IH.
Qed.

(** A strict decoder that meets a key naming no field returns an error. *)
Lemma object_fold_unknown_key (members : list (string * json)) :
  forall (u : User) (saved : option error) (k : string) (v : json),
    In (k, v) members -> lookup_field k = None ->
    exists e, snd (fold_left (object_member true) members (u, saved)) = Some e.
Proof.
  induction members as [|[k' v'] members IH]; intros u saved k v Hin Hk;
    [destruct Hin|].
  destruct Hin as [Heq|Hin].
  - injection Heq as -> ->. cbn [fold_left].
    unfold object_member at 2. cbn [fst snd]. rewrite Hk.
    destruct saved as [e|]; cbn [saveError]; eexists;
      apply object_fold_keeps_error.
  - cbn [fold_left].
    destruct (object_member true (u, saved) (k', v')) as [u' saved'].
    eapply IH; eassumption.
Qed.

Lemma validate_unknown_key (members : list (string * json)) (k : string)
    (v : json) :
  In (k, v) members -> lookup_field k = None ->
  exists e,
    validateRequestBodyFields (Doc (JObject members)) zero_User = (None, Some e).
Proof.
  intros Hin Hk. rewrite validate_decode. unfold decode_strict, Decode.
  cbn [dec_body DisallowUnknownFields json_NewDecoder disallowUnknownFields].
  destruct (object_fold_unknown_key members zero_User None k v Hin Hk)
    as [e He].
  destruct (fold_left _ _ _) as [u saved]. cbn [snd] in He. subst saved.
  exists e. reflexivity.
Qed.

(** The keys that name a field are those whose fold is the fold of one of
    the three names. *)
Lemma lookup_field_None (k : string) :
  lookup_field k = None <->
  foldName k <> "FIRST_NAME" /\ foldName k <> "LAST_NAME" /\ foldName k <> "BIO".
Proof.
  unfold lookup_field, byExactName, byFoldedName, fields.
  cbn [List.find field_name].
  destruct (String.eqb_spec "first_name" k) as [<-|_];
    [split; [discriminate|intros (H & _ & _); destruct (H eq_refl)]|].
  destruct (String.eqb_spec "last_name" k) as [<-|_];
    [split; [discriminate|intros (_ & H & _); destruct (H eq_refl)]|].
  destruct (String.eqb_spec "bio" k) as [<-|_];
    [split; [discriminate|intros (_ & _ & H); destruct (H eq_refl)]|].
  change (foldName "first_name") with "FIRST_NAME".
  change (foldName "last_name") with "LAST_NAME".
  change (foldName "bio") with "BIO".
  destruct (String.eqb_spec "FIRST_NAME" (foldName k)) as [E1|N1];
    [split; [discriminate|intros (H & _ & _); congruence]|].
  destruct (String.eqb_spec "LAST_NAME" (foldName k)) as [E2|N2];
    [split; [discriminate|intros (_ & H & _); congruence]|].
  destruct (String.eqb_spec "BIO" (foldName k)) as [E3|N3];
    [split; [discriminate|intros (_ & _ & H); congruence]|].
  split; [intros _; repeat split; congruence|reflexivity].
Qed.

Lemma handleUpdate_invalid_status (db : DB) (r : Request) (e : error) :
  validateRequestBodyFields (Body r) zero_User = (None, Some e) ->
  status (snd (handleUpdate db r new_writer)) = Some StatusBadRequest.
Proof.
  intros Hv. unfold handleUpdate. rewrite Hv.
  destruct (uuid_Parse (chi_URLParam r "id")) as [parsedID [e'|]];
    destruct (map_index db parsedID) as [user []]; reflexivity.
Qed.

(** C8, as stated, fails on the code in both halves.  A body whose third key
    is [BIO], which is none of [first_name], [last_name], [bio], passes
    strict decoding (keys are matched up to case) and is answered 201 by
    create and 404 by update on an absent identifier, which writes it; a body
    without [bio] is answered 201 as well. *)
Lemma C8_counterexample :
  "BIO" <> "first_name" /\ "BIO" <> "last_name" /\ "BIO" <> "bio" /\
  decode_strict body_upper_bio = (user_abc, None) /\
  status (snd (handleInsert ∅ uuid_Nil (post body_upper_bio) new_writer))
    = Some StatusCreated /\
  status (snd (handleUpdate ∅ (with_id id0_text body_upper_bio) new_writer))
    = Some StatusNotFound /\
  fst (handleUpdate ∅ (with_id id0_text body_upper_bio) new_writer) !! id0
    = Some (Some user_abc) /\
  status (snd (handleInsert ∅ uuid_Nil (post body_without_bio) new_writer))
    = Some StatusCreated.
Proof.
  repeat (split; [first [discriminate | vm_compute; reflexivity]|]).
  vm_compute; reflexivity.
Qed.

(** C8, amended.  A body that is an object with a key naming no field of
    [User], neither exactly nor up to the decoder's case folding, is rejected
    by strict decoding, and both create and update answer 400. *)
Theorem C8_unknown_key_is_rejected (db : DB) (random : UUID) (r : Request)
    (members : list (string * json)) (k : string) (v : json) :
  Body r = Doc (JObject members) ->
  In (k, v) members ->
  lookup_field k = None ->
  (exists e, snd (decode_strict (Body r)) = Some e) /\
  (exists e, validateRequestBodyFields (Body r) zero_User = (None, Some e)) /\
  status (snd (handleInsert db random r new_writer)) = Some StatusBadRequest /\
  status (snd (handleUpdate db r new_writer)) = Some StatusBadRequest.
Proof.
  intros Hb Hin Hk.
  destruct (validate_unknown_key members k v Hin Hk) as [e He].
  rewrite <- Hb in He. split; [|split; [|split]].
  - rewrite validate_decode in He.
    destruct (decode_strict (Body r)) as [u [e'|]]; [|discriminate].
    exists e'. reflexivity.
  - exists e. exact He.
  - rewrite (handleInsert_invalid db random r e He). reflexivity.
  - exact (handleUpdate_invalid_status db r e He).
Qed.

Lemma C8_witness :
  Body (with_id id0_text body_nickname)
    = Doc (JObject [("nickname", JString "x")]) /\
  In ("nickname", JString "x") [("nickname", JString "x")] /\
  lookup_field "nickname" = None /\
  (exists e, snd (decode_strict (Body (with_id id0_text body_nickname)))
             = Some e) /\
  (exists e, validateRequestBodyFields (Body (with_id id0_text body_nickname))
               zero_User = (None, Some e)) /\
  status (snd (handleInsert ∅ uuid_Nil (with_id id0_text body_nickname)
                 new_writer)) = Some StatusBadRequest /\
  status (snd (handleUpdate ∅ (with_id id0_text body_nickname) new_writer))
    = Some StatusBadRequest.
Proof.
  split; [reflexivity|]. split; [simpl; left; reflexivity|].
  split; [vm_compute; reflexivity|].
  apply (C8_unknown_key_is_rejected ∅ uuid_Nil (with_id id0_text body_nickname)
           [("nickname", JString "x")] "nickname" (JString "x")).
  - reflexivity.
  - simpl. left. reflexivity.
  - vm_compute. reflexivity.
Defined.

(** ** Create, then get *)





(** * Further properties of the code *)

(** ** What the validator accepts, and what it returns *)

Lemma object_fold_accepts (members : list (string * json)) :
  forall (u : User),
    snd (fold_left (object_member true) members (u, None)) = None <->
    forallb member_ok members = true.
Proof.
  induction members as [|[k v] members IH]; intros u; [done|].
  cbn [fold_left forallb]. unfold object_member at 2, member_ok at 1.
  cbn [fst snd saveError].
  destruct (lookup_field k) as [f|]; [destruct v|]; cbn [andb];
    try apply IH;
    (split; [|discriminate]); rewrite object_fold_keeps_error; discriminate.
Qed.

(** X1.  An object is accepted exactly when each of its keys names a field
    (exactly or up to case) and each of its values is a string or [null];
    the validator then returns a user and no error, and otherwise an error
    and no user. *)
Theorem X1_validator_accepts_iff (members : list (string * json)) :
  ((exists user,
      validateRequestBodyFields (Doc (JObject members)) zero_User
        = (Some user, None)) <->
   forallb member_ok members = true) /\
  ((exists e,
      validateRequestBodyFields (Doc (JObject members)) zero_User
        = (None, Some e)) <->
   forallb member_ok members = false).
Proof.
  rewrite validate_decode. unfold decode_strict, Decode.
  cbn [dec_body DisallowUnknownFields json_NewDecoder disallowUnknownFields].
  pose proof (object_fold_accepts members zero_User) as H.
  destruct (fold_left _ _ _) as [u [e|]]; cbn [snd] in H.
  - assert (forallb member_ok members = false) as ->.
    { destruct (forallb member_ok members); [|done].
      destruct H as [_ H]. discriminate (H eq_refl). }
    split; split; try discriminate; eauto. intros [x Hx]. discriminate.
  - destruct H as [H _]. rewrite (H eq_refl).
    split; split; try discriminate; eauto. intros [x Hx]. discriminate.
Qed.

Lemma last_cons_default {A : Type} (x d : A) (l : list A) :
  List.last (x :: l) d = List.last l x.
Proof.
  revert x d. induction l as [|y l IH]; intros x d; [reflexivity|].
  change (List.last (x :: y :: l) d) with (List.last (y :: l) d).
  rewrite (IH y d), (IH y x). reflexivity.
Qed.

Lemma get_set_field (f f' : field) (s : string) (u : User) :
  get_field f (set_field f' s u)
  = if String.eqb (field_name f') (field_name f) then s else get_field f u.
Proof. destruct f, f', u; reflexivity. Qed.

Lemma object_fold_no_recovery (members : list (string * json)) (u u' : User)
    (e : error) :
  fold_left (object_member true) members (u, Some e) <> (u', None).
Proof.
  intros Hf. pose proof (object_fold_keeps_error members true u e) as He.
  rewrite Hf in He. discriminate He.
Qed.

Lemma object_fold_fields (f : field) (members : list (string * json)) :
  forall (u u' : User),
    fold_left (object_member true) members (u, None) = (u', None) ->
    get_field f u' = List.last (omap (gives f) members) (get_field f u).
Proof.
  induction members as [|[k v] members IH]; intros u u' Hf.
  - injection Hf as <-. reflexivity.
  - cbn [fold_left] in Hf. unfold object_member at 2 in Hf.
    cbn [fst snd saveError] in Hf.
    cbn [omap list_omap]. unfold gives at 1, names. cbn [fst snd].
    destruct (lookup_field k) as [f'|];
      [destruct v|]; try (destruct (object_fold_no_recovery _ _ _ _ Hf)).
    + apply IH. exact Hf.
    + rewrite (IH _ _ Hf), get_set_field.
      destruct (String.eqb (field_name f') (field_name f));
        [rewrite last_cons_default|]; reflexivity.
Qed.

(** X2.  In the user the validator returns for an object, each field holds
    the last string the members give to it, a later duplicate replacing an
    earlier one and [null] replacing nothing, and is empty when no member
    gives it a string. *)
Theorem X2_validator_field_values (members : list (string * json))
    (user : User) (f : field) :
  validateRequestBodyFields (Doc (JObject members)) zero_User
    = (Some user, None) ->
  get_field f user = field_value f members.
Proof.
  rewrite validate_decode. unfold decode_strict, Decode.
  cbn [dec_body DisallowUnknownFields json_NewDecoder disallowUnknownFields].
  destruct (fold_left _ _ _) as [u [e|]] eqn:Hf; [discriminate|].
  intros [= <-]. rewrite (object_fold_fields f members _ _ Hf).
  destruct f; reflexivity.
Qed.

Lemma X2_witness :
  validateRequestBodyFields (Doc (JObject members_duplicates)) zero_User
    = (Some (mkUser "" "B" "new"), None) /\
  get_field bio (mkUser "" "B" "new") = field_value bio members_duplicates.
Proof.
  split; [vm_compute; reflexivity|].
  apply (X2_validator_field_values members_duplicates (mkUser "" "B" "new") bio).
  vm_compute. reflexivity.
Defined.

(** X3.  Of the bodies that are not objects the validator accepts [null]
    alone, and returns for it the user with three empty strings; a body that
    is not JSON, a boolean, a number, a string and an array are rejected. *)
Theorem X3_validator_bodies_other_than_objects (body : ReadCloser) :
  (forall members, body <> Doc (JObject members)) ->
  (body = Doc JNull /\
   validateRequestBodyFields body zero_User = (Some zero_User, None)) \/
  (body <> Doc JNull /\
   exists e, validateRequestBodyFields body zero_User = (None, Some e)).
Proof.
  intros Hno. rewrite validate_decode.
  destruct body as [|[]]; try (right; split; [discriminate|eexists; reflexivity]).
  - left. split; reflexivity.
  - destruct (Hno members eq_refl).
Qed.

Lemma X3_witness :
  (forall members, Doc (JArray []) <> Doc (JObject members)) /\
  ((Doc (JArray []) = Doc JNull /\
    validateRequestBodyFields (Doc (JArray [])) zero_User
      = (Some zero_User, None)) \/
   (Doc (JArray []) <> Doc JNull /\
    exists e, validateRequestBodyFields (Doc (JArray [])) zero_User
                = (None, Some e))).
Proof.
  split; [discriminate|].
  apply (X3_validator_bodies_other_than_objects (Doc (JArray []))).
  discriminate.
Defined.

(** ** Updates and deletes that answer with an error *)

(** X4.  An update of a stored user with a body that fails validation
    answers 400 and still writes: the nil pointer takes the place of the
    user, and a get of the identifier then answers 200 with an object that
    holds the identifier alone. *)
Theorem X4_failed_update_erases_the_user (db : DB) (r : Request) (id : UUID)
    (old : User) (e : error) :
  uuid_Parse (chi_URLParam r "id") = (id, None) ->
  db !! id = Some (Some old) ->
  validateRequestBodyFields (Body r) zero_User = (None, Some e) ->
  let '(db1, w1) := handleUpdate db r new_writer in
  let '(db2, w2) := handleFindById db1 r new_writer in
  status w1 = Some StatusBadRequest /\
  written w1 = [Text (line "Invalid request body"); Json (wrapped id None)] /\
  db1 = <[id := None]> db /\
  status w2 = Some StatusOK /\
  written w2 = [Json (JObject [("id", JString (uuid_String id))])] /\
  db2 = db1.
Proof.
  intros Hp Hin Hv.
  unfold handleUpdate, handleFindById, map_index, json_Marshal,
    UserResponse_Marshaler.
  rewrite Hp, Hv, Hin. cbv beta iota zeta. rewrite lookup_insert_eq.
  repeat split; reflexivity.
Qed.

Lemma X4_witness :
  uuid_Parse (chi_URLParam (with_id id0_text body_nickname) "id") = (id0, None) /\
  (<[id0 := Some user_abc]> ∅ : DB) !! id0 = Some (Some user_abc) /\
  validateRequestBodyFields (Body (with_id id0_text body_nickname)) zero_User
    = (None, Some (UnknownField "nickname")) /\
  let '(db1, w1) :=
    handleUpdate (<[id0 := Some user_abc]> ∅) (with_id id0_text body_nickname)
      new_writer in
  let '(db2, w2) :=
    handleFindById db1 (with_id id0_text body_nickname) new_writer in
  status w1 = Some StatusBadRequest /\
  written w1 = [Text (line "Invalid request body"); Json (wrapped id0 None)] /\
  db1 = <[id0 := None]> (<[id0 := Some user_abc]> ∅) /\
  status w2 = Some StatusOK /\
  written w2 = [Json (JObject [("id", JString (uuid_String id0))])] /\
  db2 = db1.
Proof.
  split; [vm_compute; reflexivity|].
  split; [vm_compute; reflexivity|].
  split; [vm_compute; reflexivity|].
  apply (X4_failed_update_erases_the_user (<[id0 := Some user_abc]> ∅)
           (with_id id0_text body_nickname) id0 user_abc
           (UnknownField "nickname")); vm_compute; reflexivity.
Defined.




(** Unfolds the handlers down to the calls on the store and on the writer. *)
Ltac unfold_handlers :=
  unfold handleInsert, handleUpdate, handleFindById, handleDelete, map_index,
    json_Marshal, UserResponse_Marshaler.

(** Reduces the lookups of the key just written or just deleted. *)
Ltac reduce_lookups :=
  cbv beta iota zeta;
  repeat (first [rewrite lookup_insert_eq | rewrite lookup_delete_eq];
          cbv beta iota zeta).

(** X6.  A delete of an identifier that parses and that the store does not
    hold answers 404 "User not found" and returns the store as it was. *)
Theorem X6_delete_of_an_absent_identifier (db : DB) (r : Request) (id : UUID) :
  uuid_Parse (chi_URLParam r "id") = (id, None) ->
  db !! id = None ->
  handleDelete db r new_writer =
  (db, mkWriter (Some StatusNotFound) [Text (line "User not found")]
         [CallWriteHeader StatusNotFound; CallWrite (Text (line "User not found"));
          CallWriteHeader StatusNoContent]).
Proof.
  intros Hp Hout. unfold_handlers. rewrite Hp, Hout.
  rewrite (delete_id db id Hout). reflexivity.
Qed.

Lemma X6_witness :
  uuid_Parse (chi_URLParam (with_id id0_text Malformed) "id") = (id0, None) /\
  (∅ : DB) !! id0 = None /\
  handleDelete ∅ (with_id id0_text Malformed) new_writer =
  (∅, mkWriter (Some StatusNotFound) [Text (line "User not found")]
        [CallWriteHeader StatusNotFound; CallWrite (Text (line "User not found"));
         CallWriteHeader StatusNoContent]).
Proof.
  split; [vm_compute; reflexivity|].
  split; [vm_compute; reflexivity|].
  apply (X6_delete_of_an_absent_identifier ∅ (with_id id0_text Malformed) id0);
    vm_compute; reflexivity.
Defined.

(** ** Reading back what was written *)

(** X7.  After an update with an identifier that parses and a body that
    passes validation, whatever the update answered, a get of the identifier
    answers 200 with the identifier and the fields of the body; after a
    delete of the identifier, a get answers 404 and writes, after the error
    text, an object that holds the identifier alone. *)
Theorem X7_get_after_update_and_after_delete (db : DB) (r : Request)
    (id : UUID) (user : User) :
  uuid_Parse (chi_URLParam r "id") = (id, None) ->
  validateRequestBodyFields (Body r) zero_User = (Some user, None) ->
  let '(db1, w1) := handleUpdate db r new_writer in
  let '(db2, w2) := handleFindById db1 r new_writer in
  let '(db3, w3) := handleDelete db2 r new_writer in
  let '(db4, w4) := handleFindById db3 r new_writer in
  status w2 = Some StatusOK /\
  written w2 = [Json (object3 id (FirstName user) (LastName user) (Bio user))] /\
  status w3 = Some StatusNoContent /\
  status w4 = Some StatusNotFound /\
  written w4 = [Text (line "User not found");
                Json (JObject [("id", JString (uuid_String id))])] /\
  db4 = delete id db.
Proof.
  intros Hp Hv. unfold_handlers. rewrite Hp, Hv.
  destruct (db !! id) as [old|]; reduce_lookups;
    repeat (split; [reflexivity|]); apply delete_insert_eq.
Qed.

Lemma X7_witness :
  uuid_Parse (chi_URLParam (with_id id0_text body_ordered) "id") = (id0, None) /\
  validateRequestBodyFields (Body (with_id id0_text body_ordered)) zero_User
    = (Some user_abc, None) /\
  let '(db1, w1) := handleUpdate ∅ (with_id id0_text body_ordered) new_writer in
  let '(db2, w2) :=
    handleFindById db1 (with_id id0_text body_ordered) new_writer in
  let '(db3, w3) := handleDelete db2 (with_id id0_text body_ordered) new_writer in
  let '(db4, w4) :=
    handleFindById db3 (with_id id0_text body_ordered) new_writer in
  status w2 = Some StatusOK /\
  written w2 = [Json (object3 id0 (FirstName user_abc) (LastName user_abc)
                        (Bio user_abc))] /\
  status w3 = Some StatusNoContent /\
  status w4 = Some StatusNotFound /\
  written w4 = [Text (line "User not found");
                Json (JObject [("id", JString (uuid_String id0))])] /\
  db4 = delete id0 ∅.
Proof.
  split; [vm_compute; reflexivity|].
  split; [vm_compute; reflexivity|].
  apply (X7_get_after_update_and_after_delete ∅ (with_id id0_text body_ordered)
           id0 user_abc); vm_compute; reflexivity.
Defined.

(** X8.  The life of a user, from any store and for any strings and any
    bytes of the random source: create answers 201, a get of the identifier
    200 with the strings of the create, an update 200 with the new strings, a
    get 200 with the new strings, a delete 204 and a last get 404; the store
    is then the first one without the identifier. *)
Theorem X8_create_get_update_get_delete_get (db : DB) (random : UUID)
    (a b c a' b' c' : string) :
  let id := uuid_New random in
  let text := uuid_String id in
  let '(db1, w1) := handleInsert db random (post (body3 a b c)) new_writer in
  let '(db2, w2) := handleFindById db1 (with_id text Malformed) new_writer in
  let '(db3, w3) := handleUpdate db2 (with_id text (body3 a' b' c')) new_writer in
  let '(db4, w4) := handleFindById db3 (with_id text Malformed) new_writer in
  let '(db5, w5) := handleDelete db4 (with_id text Malformed) new_writer in
  let '(db6, w6) := handleFindById db5 (with_id text Malformed) new_writer in
  (status w1 = Some StatusCreated /\ written w1 = [Json (object3 id a b c)]) /\
  (status w2 = Some StatusOK /\ written w2 = [Json (object3 id a b c)]) /\
  (status w3 = Some StatusOK /\ written w3 = [Json (object3 id a' b' c')]) /\
  (status w4 = Some StatusOK /\ written w4 = [Json (object3 id a' b' c')]) /\
  (status w5 = Some StatusNoContent /\ written w5 = []) /\
  (status w6 = Some StatusNotFound) /\
  db6 = delete id db.
Proof.
  intros id text.
  assert (Hv : forall x y z,
    validateRequestBodyFields (body3 x y z) zero_User
      = (Some (mkUser x y z), None)).
  { intros x y z. rewrite validate_decode. vm_compute. reflexivity. }
  unfold_handlers. unfold post, with_id. cbn [Body chi_URLParam URLParams
    List.find fst snd String.eqb Ascii.eqb Bool.eqb].
  rewrite !Hv. unfold text. rewrite !uuid_Parse_String. fold id.
  reduce_lookups. repeat (split; [repeat split; reflexivity|]).
  rewrite insert_insert_eq. apply delete_insert_eq.
Qed.

(** ** An invariant of the store *)

Lemma no_nil_insert (db : DB) (id : UUID) (user : User) :
  no_nil db -> no_nil (<[id := Some user]> db).
Proof.
  intros Hn id'. destruct (decide (id = id')) as [<-|Hne].
  - rewrite lookup_insert_eq. discriminate.
  - rewrite lookup_insert_ne by exact Hne. apply Hn.
Qed.

Lemma no_nil_delete (db : DB) (id : UUID) : no_nil db -> no_nil (delete id db).
Proof.
  intros Hn id'. destruct (decide (id = id')) as [<-|Hne].
  - rewrite lookup_delete_eq. discriminate.
  - rewrite lookup_delete_ne by exact Hne. apply Hn.
Qed.

Lemma handleFindAll_store (db : DB) (order : list (UUID * option User))
    (r : Request) (w : ResponseWriter) :
  fst (handleFindAll db order r w) = db.
Proof. unfold handleFindAll. destruct (json_Marshal _). reflexivity. Qed.

Lemma serve_no_nil (db : DB) (s : Served) :
  no_nil db -> writes_valid s -> no_nil (serve db s).
Proof.
  intros Hn Hv. unfold serve, writes_valid in *.
  destruct s as [m p env r]. cbn [served_method served_pattern served_env
    served_request] in *.
  destruct m, p; cbn [NewHandler]; try exact Hn.
  - rewrite handleFindAll_store. exact Hn.
  - unfold handleFindById.
    destruct (uuid_Parse (chi_URLParam r "id")) as [parsedID err].
    destruct (map_index db parsedID). exact Hn.
  - destruct Hv as [user Hv]. unfold handleInsert. rewrite Hv.
    apply no_nil_insert, Hn.
  - destruct Hv as [user Hv]. unfold handleUpdate. rewrite Hv.
    destruct (uuid_Parse (chi_URLParam r "id")) as [parsedID err].
    destruct (map_index db parsedID). apply no_nil_insert, Hn.
  - unfold handleDelete.
    destruct (uuid_Parse (chi_URLParam r "id")) as [parsedID err].
    destruct (map_index db parsedID). apply no_nil_delete, Hn.
Qed.

(** X9.  Served through the table of routes, from a store that holds no nil
    pointer, any sequence of requests whose creates and updates all carry a
    body that passes validation leaves a store that holds no nil pointer,
    whatever the identifiers, the methods and the answers were. *)
Theorem X9_no_nil_pointer_is_stored (db : DB) (requests : list Served) :
  no_nil db -> Forall writes_valid requests -> no_nil (serve_all db requests).
Proof.
  unfold serve_all. revert db.
  induction requests as [|s requests IH]; intros db Hn Hall; [exact Hn|].
  inversion Hall as [|? ? Hs Hrest]; subst. cbn [fold_left].
  apply IH; [apply serve_no_nil; assumption|exact Hrest].
Qed.

Lemma X9_witness :
  no_nil ∅ /\ Forall writes_valid requests_sample /\
  no_nil (serve_all ∅ requests_sample).
Proof.
  assert (H0 : no_nil ∅) by (intros id; rewrite lookup_empty; discriminate).
  assert (Hall : Forall writes_valid requests_sample).
  { repeat constructor.
    - exists user_abc. vm_compute. reflexivity.
    - exists (mkUser "D" "E" "F"). vm_compute. reflexivity. }
  split; [exact H0|]. split; [exact Hall|].
  apply (X9_no_nil_pointer_is_stored ∅ requests_sample H0 Hall).
Defined.

(** ** The list of a store that is not empty *)

Lemma User_members_inj (u u' : User) :
  User_members u = User_members u' -> u = u'.
Proof. destruct u, u'. unfold User_members. cbn. intros [= -> -> ->]. done. Qed.

Lemma uuid_String_inj (id id' : UUID) :
  uuid_String id = uuid_String id' -> id = id'.
Proof.
  intros H. pose proof (uuid_Parse_String id) as Hp.
  rewrite H, uuid_Parse_String in Hp. congruence.
Qed.

Lemma wrapped_inj (id id' : UUID) (user user' : option User) :
  wrapped id user = wrapped id' user' -> id = id' /\ user = user'.
Proof.
  unfold wrapped. intros [= Hid Hu]. split; [exact (uuid_String_inj _ _ Hid)|].
  destruct user as [u|], user' as [u'|]; try discriminate Hu; [|done].
  f_equal. exact (User_members_inj _ _ Hu).
Qed.

(** X10.  For a store that is not empty the list handler answers 200 with
    one array: it has as many elements as the store has entries, and an
    object of an identifier and a pointer is among them exactly when the
    store maps the identifier to the pointer. *)
Theorem X10_list_of_a_store_not_empty (db : DB)
    (order : list (UUID * option User)) (r : Request) :
  range_order db order -> db <> ∅ ->
  exists elements,
    handleFindAll db order r new_writer =
      (db, mkWriter (Some StatusOK) [Json (JArray elements)]
             [CallWriteHeader StatusOK; CallWrite (Json (JArray elements))]) /\
    length elements = size db /\
    forall id user, In (wrapped id user) elements <-> db !! id = Some user.
Proof.
  intros Hr Hne.
  assert (order <> []) as Ho.
  { intros ->. apply Hne, map_to_list_empty_iff.
    unfold range_order in Hr. apply Permutation_nil in Hr. exact Hr. }
  exists (map (fun kv => wrapped (fst kv) (snd kv)) order).
  split; [exact (handleFindAll_nonempty db order r Ho)|]. split.
  - rewrite length_map, (Permutation_length Hr). apply length_map_to_list.
  - intros id user. rewrite in_map_iff. split.
    + intros ([id' user'] & Heq & Hin). cbn [fst snd] in Heq.
      apply wrapped_inj in Heq as [-> ->].
      apply elem_of_map_to_list. rewrite <- Hr. apply list_elem_of_In, Hin.
    + intros Hl. exists (id, user). split; [reflexivity|].
      apply list_elem_of_In. rewrite Hr. apply elem_of_map_to_list, Hl.
Qed.

Lemma X10_witness :
  range_order (<[id0 := Some user_abc]> ∅) [(id0, Some user_abc)] /\
  (<[id0 := Some user_abc]> ∅ : DB) <> ∅ /\
  exists elements,
    handleFindAll (<[id0 := Some user_abc]> ∅) [(id0, Some user_abc)]
      (post Malformed) new_writer =
      (<[id0 := Some user_abc]> ∅,
       mkWriter (Some StatusOK) [Json (JArray elements)]
         [CallWriteHeader StatusOK; CallWrite (Json (JArray elements))]) /\
    length elements = size (<[id0 := Some user_abc]> ∅ : DB) /\
    forall id user,
      In (wrapped id user) elements
      <-> (<[id0 := Some user_abc]> ∅ : DB) !! id = Some user.
Proof.
  assert (Hr : range_order (<[id0 := Some user_abc]> ∅) [(id0, Some user_abc)])
    by (unfold range_order; vm_compute; repeat constructor).
  split; [exact Hr|]. split; [apply insert_non_empty|].
  apply (X10_list_of_a_store_not_empty (<[id0 := Some user_abc]> ∅)
           [(id0, Some user_abc)] (post Malformed) Hr).
  apply insert_non_empty.
Defined.

(** ** handleInsert_EXPERIMENTAL *)

(** A decoder that ignores unknown keys fills the struct as the strict one
    does, and reports no error where the strict one reports none. *)
Lemma lenient_member_after_strict (kv : string * json) (u : User)
    (s1 s2 : option error) :
  (s1 = None -> s2 = None) ->
  exists u' s1' s2',
    object_member true (u, s1) kv = (u', s1') /\
    object_member false (u, s2) kv = (u', s2') /\
    (s1' = None -> s2' = None).
Proof.
  intros Hs. unfold object_member.
  destruct (lookup_field (fst kv)) as [f|]; [destruct (snd kv)|];
    do 3 eexists; (split; [reflexivity|split; [reflexivity|]]);
    try exact Hs; destruct s1; cbn [saveError]; discriminate.
Qed.

Lemma lenient_after_strict (members : list (string * json)) :
  forall (u : User) (s1 s2 : option error),
    (s1 = None -> s2 = None) ->
    fst (fold_left (object_member true) members (u, s1))
      = fst (fold_left (object_member false) members (u, s2)) /\
    (snd (fold_left (object_member true) members (u, s1)) = None ->
     snd (fold_left (object_member false) members (u, s2)) = None).
Proof.
  induction members as [|kv members IH]; intros u s1 s2 Hs; [split; done|].
  cbn [fold_left].
  destruct (lenient_member_after_strict kv u s1 s2 Hs)
    as (u' & s1' & s2' & -> & -> & Hs').
  apply IH, Hs'.
Qed.

Lemma lenient_decode_after_strict (j : json) (user : User) :
  decode_strict (Doc j) = (user, None) ->
  Decode (json_NewDecoder (Doc j)) zero_User = (user, None).
Proof.
  unfold decode_strict, Decode.
  cbn [dec_body DisallowUnknownFields json_NewDecoder disallowUnknownFields].
  destruct j; try (intros H; exact H).
  intros H.
  destruct (lenient_after_strict members zero_User None None (fun x => x))
    as [Hu He].
  rewrite H in Hu, He. cbn [fst snd] in Hu, He.
  destruct (fold_left (object_member false) members (zero_User, None))
    as [u' e']. cbn [fst snd] in Hu, He. rewrite <- Hu, (He eq_refl).
  reflexivity.
Qed.

(** X11.  [handleInsert_EXPERIMENTAL] never changes the store and answers
    once.  A body of more than 1048576 bytes gets 500; otherwise the answer
    depends on strict decoding alone, the first pass that ignores unknown
    keys rejecting nothing more: a body that is one JSON value accepted by
    strict decoding gets 200 and the marshalled user, without identifier,
    and any other body one 400 with its text. *)
Theorem X11_experimental_insert (db : DB) (body : RawBody) :
  handleInsert_EXPERIMENTAL db body new_writer =
  (db,
   if (1048576 <? raw_size body)%N
   then http_Error new_writer "Error reading request body"
          StatusInternalServerError
   else
     match raw_content body with
     | OneValue j =>
         match decode_strict (Doc j) with
         | (user, None) =>
             mkWriter (Some StatusOK) [Json (JObject (User_members user))]
               [CallWrite (Json (JObject (User_members user)))]
         | (_, Some _) =>
             http_Error new_writer "Error unmarshaling request body to payload"
               StatusBadRequest
         end
     | NotJSON | ValueThenMore _ =>
         http_Error new_writer "Error unmarshaling request body to payload"
           StatusBadRequest
     end).
Proof.
  unfold handleInsert_EXPERIMENTAL, io_ReadAll_MaxBytes, json_Unmarshal_User,
    io_NopCloser.
  change (1024 * 1024)%N with 1048576%N.
  destruct (1048576 <? raw_size body)%N; [reflexivity|].
  cbn [notnil]. destruct (raw_content body) as [|j|j]; [reflexivity| |reflexivity].
  fold (decode_strict (Doc j)).
  destruct (decode_strict (Doc j)) as [user [e|]] eqn:Hd.
  - destruct (Decode (json_NewDecoder (Doc j)) zero_User) as [payload [e'|]];
      reflexivity.
  - rewrite (lenient_decode_after_strict j user Hd). reflexivity.
Qed.

(** X12.  On a body that is one JSON value of at most 1048576 bytes,
    [handleInsert_EXPERIMENTAL] and [handleInsert] agree on whether the body
    is good: the first answers 200 exactly when the second answers 201, and
    each answers 400 otherwise. *)
Theorem X12_experimental_and_routed_insert_agree (db : DB) (random : UUID)
    (body : RawBody) (j : json) (r : Request) :
  (raw_size body <= 1048576)%N ->
  raw_content body = OneValue j ->
  Body r = Doc j ->
  let experimental := status (snd (handleInsert_EXPERIMENTAL db body new_writer)) in
  let routed := status (snd (handleInsert db random r new_writer)) in
  (experimental = Some StatusOK /\ routed = Some StatusCreated) \/
  (experimental = Some StatusBadRequest /\ routed = Some StatusBadRequest).
Proof.
  intros Hsize Hc Hb.
  unfold handleInsert_EXPERIMENTAL, io_ReadAll_MaxBytes, json_Unmarshal_User,
    io_NopCloser, handleInsert.
  change (1024 * 1024)%N with 1048576%N.
  apply N.ltb_ge in Hsize. rewrite Hsize, Hc, validate_decode, Hb.
  fold (decode_strict (Doc j)).
  destruct (decode_strict (Doc j)) as [user [e|]] eqn:Hd.
  - right.
    destruct (Decode (json_NewDecoder (Doc j)) zero_User) as [payload [e'|]];
      split; reflexivity.
  - left. rewrite (lenient_decode_after_strict j user Hd). split; reflexivity.
Qed.

Lemma X12_witness :
  (raw_size raw_ordered <= 1048576)%N /\
  raw_content raw_ordered
    = OneValue (JObject [("first_name", JString "A"); ("last_name", JString "B");
                         ("bio", JString "C")]) /\
  Body (post body_ordered)
    = Doc (JObject [("first_name", JString "A"); ("last_name", JString "B");
                    ("bio", JString "C")]) /\
  let experimental :=
    status (snd (handleInsert_EXPERIMENTAL ∅ raw_ordered new_writer)) in
  let routed :=
    status (snd (handleInsert ∅ uuid_Nil (post body_ordered) new_writer)) in
  (experimental = Some StatusOK /\ routed = Some StatusCreated) \/
  (experimental = Some StatusBadRequest /\ routed = Some StatusBadRequest).
Proof.
  split; [vm_compute; discriminate|].
  split; [reflexivity|]. split; [reflexivity|].
  apply (X12_experimental_and_routed_insert_agree ∅ uuid_Nil raw_ordered
           (JObject [("first_name", JString "A"); ("last_name", JString "B");
                     ("bio", JString "C")])
           (post body_ordered)).
  - vm_compute. discriminate.
  - reflexivity.
  - reflexivity.
Defined.

(** ** The validator with another schema *)

Lemma userMap_index_is_nil (user : User) (key : string) :
  index_is_nil (fst (json_Unmarshal (fst (json_Marshal user)))) key
  = negb (is_field_key key).
Proof.
  unfold json_Marshal, User_Marshaler, json_Unmarshal, User_members, fields.
  cbn [fst snd map fold_left field_name]. unfold index_is_nil, is_field_key, fields.
  cbn [existsb field_name]. rewrite !lookup_insert, lookup_empty.
  destruct (String.eqb_spec "first_name" key) as [<-|N1];
    [repeat case_decide; first [done | reflexivity]|].
  destruct (String.eqb_spec "last_name" key) as [<-|N2];
    [repeat case_decide; first [done | reflexivity]|].
  destruct (String.eqb_spec "bio" key) as [<-|N3];
    [repeat case_decide; first [done | reflexivity]|].
  repeat case_decide; first [congruence | reflexivity].
Qed.

Lemma unmarshal_keys (members : list (string * json)) :
  forall (m : gmap string json) (key : string),
    is_Some (fold_left (fun m kv => <[fst kv := snd kv]> m) members m !! key)
    <-> is_Some (m !! key) \/ In key (map fst members).
Proof.
  induction members as [|[k v] members IH]; intros m key; cbn [fold_left map In].
  - tauto.
  - rewrite IH. cbn [fst snd]. rewrite lookup_insert. case_decide; subst.
    + split; [intros _; right; left; reflexivity|intros _; left; eauto].
    + split; [tauto|intros [?|[?|?]]; tauto].
Qed.

Lemma existsb_keys (P : string -> bool) (m : gmap string json) :
  existsb P (map fst (map_to_list m)) = true <->
  exists key, is_Some (m !! key) /\ P key = true.
Proof.
  rewrite existsb_exists. split.
  - intros (key & Hin & HP). exists key. split; [|exact HP].
    apply in_map_iff in Hin as ([k v] & <- & Hin).
    exists v. apply elem_of_map_to_list, list_elem_of_In, Hin.
  - intros (key & [v Hv] & HP). exists key. split; [|exact HP].
    apply in_map_iff. exists (key, v). split; [reflexivity|].
    apply list_elem_of_In, elem_of_map_to_list, Hv.
Qed.

(** X14.  With any schema that is marshalled as an object, the validator
    returns the error for missing fields exactly when strict decoding passed
    and the schema has a key that is not, letter for letter, [first_name],
    [last_name] or [bio]; the body plays no part in that check.  It returns
    the decoder's error when decoding failed, and the decoded user
    otherwise. *)
Theorem X14_validator_with_any_schema {A : Type} `{Marshaler A}
    (body : ReadCloser) (schemaObj : A) (keys : list (string * json)) :
  json_Marshal schemaObj = (Some (JObject keys), None) ->
  validateRequestBodyFields body schemaObj =
  match decode_strict body with
  | (_, Some e) => (None, Some e)
  | (user, None) =>
      if forallb (fun kv => is_field_key (fst kv)) keys
      then (Some user, None)
      else (None, Some missing_fields)
  end.
Proof.
  intros Hm. unfold validateRequestBodyFields, decode_strict.
  destruct (Decode _ _) as [user [e|]]; [reflexivity|].
  rewrite Hm. cbn [json_Unmarshal].
  pose proof (userMap_index_is_nil user) as Hnil.
  destruct (json_Marshal user) as [userJson e1] eqn:E1.
  unfold json_Marshal, User_Marshaler in E1. injection E1 as <- <-.
  cbn [fst] in Hnil. cbn [json_Unmarshal].
  set (userMap := fold_left _ (User_members user) ∅) in *.
  set (schemaObjMap := fold_left _ keys ∅).
  destruct (forallb (fun kv => is_field_key (fst kv)) keys) eqn:Hall.
  - destruct (existsb _ _) eqn:Hex; [|reflexivity].
    apply existsb_keys in Hex as (key & Hkey & Hk).
    apply unmarshal_keys in Hkey as [[v Hv]|Hin];
      [rewrite lookup_empty in Hv; discriminate|].
    apply in_map_iff in Hin as (kv & <- & Hin).
    rewrite forallb_forall in Hall. rewrite Hnil, (Hall kv Hin) in Hk.
    discriminate.
  - assert (existsb (index_is_nil userMap) (map fst (map_to_list schemaObjMap))
            = true) as ->; [|reflexivity].
    apply existsb_keys.
    assert (exists kv, In kv keys /\ is_field_key (fst kv) = false)
      as (kv & Hin & Hk).
    { clear -Hall. induction keys as [|kv keys IH]; [discriminate|].
      cbn [forallb] in Hall. destruct (is_field_key (fst kv)) eqn:Hk.
      - destruct (IH Hall) as (kv' & Hin & Hk'). exists kv'.
        split; [right; exact Hin|exact Hk'].
      - exists kv. split; [left; reflexivity|exact Hk]. }
    exists (fst kv). split.
    + apply unmarshal_keys. right. apply in_map, Hin.
    + rewrite Hnil, Hk. reflexivity.
Qed.

Lemma X14_witness :
  json_Marshal (mkUserResponse uuid_Nil (Some zero_User))
    = (Some (JObject (("id", JString (uuid_String uuid_Nil))
                      :: User_members zero_User)), None) /\
  validateRequestBodyFields body_ordered (mkUserResponse uuid_Nil (Some zero_User))
  = match decode_strict body_ordered with
    | (_, Some e) => (None, Some e)
    | (user, None) =>
        if forallb (fun kv => is_field_key (fst kv))
             (("id", JString (uuid_String uuid_Nil)) :: User_members zero_User)
        then (Some user, None)
        else (None, Some missing_fields)
    end.
Proof.
  split; [reflexivity|].
  apply (X14_validator_with_any_schema body_ordered
           (mkUserResponse uuid_Nil (Some zero_User))
           (("id", JString (uuid_String uuid_Nil)) :: User_members zero_User)).
  reflexivity.
Defined.

(** ** What a request leaves alone *)

(** X13.  Whatever the request and whatever the answer, a create maps every
    identifier other than the new one as before, be it the identifier of the
    path or any other; an update and a delete map as before every identifier
    other than the one [uuid.Parse] returned. *)
Theorem X13_other_entries_are_untouched (db : DB) (random : UUID)
    (r : Request) (w : ResponseWriter) (id id' : UUID) :
  id <> uuid_New random ->
  id' <> fst (uuid_Parse (chi_URLParam r "id")) ->
  fst (handleInsert db random r w) !! id = db !! id /\
  fst (handleUpdate db r w) !! id' = db !! id' /\
  fst (handleDelete db r w) !! id' = db !! id'.
Proof.
  intros Hnew Hparsed. unfold_handlers.
  destruct (uuid_Parse (chi_URLParam r "id")) as [parsedID err].
  destruct (validateRequestBodyFields (Body r) zero_User) as [user verr].
  destruct (db !! parsedID) as [old|]; cbn [fst snd] in *;
    (split; [|split]);
    first [apply lookup_insert_ne; congruence
          |apply lookup_delete_ne; congruence].
Qed.

Lemma X13_witness :
  uuid_Nil <> uuid_New uuid_Nil /\
  id1 <> fst (uuid_Parse (chi_URLParam (post body_nickname) "id")) /\
  fst (handleInsert (<[uuid_Nil := Some user_abc]> (<[id1 := Some user_abc]> ∅))
         uuid_Nil (post body_nickname) new_writer) !! uuid_Nil
    = (<[uuid_Nil := Some user_abc]> (<[id1 := Some user_abc]> ∅) : DB)
        !! uuid_Nil /\
  fst (handleUpdate (<[uuid_Nil := Some user_abc]> (<[id1 := Some user_abc]> ∅))
         (post body_nickname) new_writer) !! id1
    = (<[uuid_Nil := Some user_abc]> (<[id1 := Some user_abc]> ∅) : DB) !! id1 /\
  fst (handleDelete (<[uuid_Nil := Some user_abc]> (<[id1 := Some user_abc]> ∅))
         (post body_nickname) new_writer) !! id1
    = (<[uuid_Nil := Some user_abc]> (<[id1 := Some user_abc]> ∅) : DB) !! id1.
Proof.
  split; [vm_compute; discriminate|].
  split; [vm_compute; discriminate|].
  apply (X13_other_entries_are_untouched
           (<[uuid_Nil := Some user_abc]> (<[id1 := Some user_abc]> ∅)) uuid_Nil
           (post body_nickname) new_writer uuid_Nil id1);
    vm_compute; discriminate.
Defined.

(** X15.  Through the table of routes the store is changed by POST on
    [/users] and by PUT and DELETE on [/users/{id}] only: a GET on either
    pattern, and a method on a pattern that has no handler for it, leave the
    store as it was. *)
Theorem X15_only_three_routes_write (db : DB) (s : Served) :
  serve db s <> db ->
  (served_method s = POST /\ served_pattern s = users) \/
  (served_method s = PUT /\ served_pattern s = users_id) \/
  (served_method s = DELETE /\ served_pattern s = users_id).
Proof.
  unfold serve. destruct s as [m p env r].
  cbn [served_method served_pattern served_env served_request].
  destruct m, p; cbn [NewHandler]; intros Hne; auto;
    exfalso; apply Hne; try reflexivity.
  - apply handleFindAll_store.
  - unfold handleFindById.
    destruct (uuid_Parse (chi_URLParam r "id")) as [parsedID err].
    destruct (map_index db parsedID). reflexivity.
Qed.

Lemma X15_witness :
  serve ∅ (mkServed POST users no_env (post body_ordered)) <> ∅ /\
  ((served_method (mkServed POST users no_env (post body_ordered)) = POST /\
    served_pattern (mkServed POST users no_env (post body_ordered)) = users) \/
   (served_method (mkServed POST users no_env (post body_ordered)) = PUT /\
    served_pattern (mkServed POST users no_env (post body_ordered)) = users_id) \/
   (served_method (mkServed POST users no_env (post body_ordered)) = DELETE /\
    served_pattern (mkServed POST users no_env (post body_ordered)) = users_id)).
Proof.
  assert (H : serve ∅ (mkServed POST users no_env (post body_ordered)) <> ∅)
    by (vm_compute; discriminate).
  split; [exact H|].
  apply (X15_only_three_routes_write ∅
           (mkServed POST users no_env (post body_ordered)) H).
Defined.
